(** * sqlservertest.py: a linear script over the pyodbc driver

    The script builds an ODBC connection string from five literals, opens a
    connection, runs four SQL statements through one cursor, prints what it
    gets and closes the connection in a [finally] block.

    The driver is not part of the script: it is modelled as an interface
    (class [Pyodbc]) whose methods are deterministic functions of the state
    of the outside world (driver, network, server).  Every method may return
    a value or raise any Python exception.  The script itself is written in
    a state-and-exception monad over

      - the state of the outside world,
      - the trace of what the script did (driver calls with their results,
        lines printed), in order,
      - the module-level names [conn], [cursor], [row] and [rows], each
        unbound until its first assignment. *)

From Stdlib Require Import String Ascii List Bool ZArith DecimalString Lia.
Import ListNotations.
Local Open Scope string_scope.
Local Open Scope list_scope.

(** ** Python exceptions and results of calls *)

(** [PyodbcError cls text]: an instance of [pyodbc.Error] or of one of its
    subclasses; [cls] is the name of the class ([OperationalError],
    [ProgrammingError], [IntegrityError], ...) and [text] is [str(ex)].
    [NameError name]: what reading an unbound name raises.
    [OtherException text]: any exception that is not a [pyodbc.Error]. *)
Inductive exn : Type :=
| PyodbcError (cls : string) (text : string)
| NameError (name : string)
| OtherException (text : string).

Inductive result (A : Type) : Type :=
| Returns (a : A)
| Raises (e : exn).
Arguments Returns {A} a.
Arguments Raises {A} e.

(** [isinstance(e, pyodbc.Error)], the test of the [except] clause. *)
Definition is_pyodbc_error (e : exn) : bool :=
  match e with
  | PyodbcError _ _ => true
  | _ => false
  end.

(** ** The driver interface

    [World] is the state of everything outside the script.  [execute]
    returns the cursor in Python; the script drops that value, so it is
    [unit] here.  [fetchone] returns a row or Python's [None]. *)
Class Pyodbc : Type := {
  World : Type;
  Connection : Type;
  Cursor : Type;
  Row : Type;
  row_str : Row -> string;
  connect : string -> World -> result Connection * World;
  conn_cursor : Connection -> World -> result Cursor * World;
  execute : Cursor -> string -> World -> result unit * World;
  fetchone : Cursor -> World -> result (option Row) * World;
  fetchall : Cursor -> World -> result (list Row) * World;
  commit : Connection -> World -> result unit * World;
  close : Connection -> World -> result unit * World
}.

(** ** Configuration (lines 4-8) and connection string (lines 11-19) *)

Definition server : string := "localhost".
Definition database : string := "master".
Definition username : string := "sa".
Definition password : string := "!Passw0rd".
Definition driver : string := "{ODBC Driver 18 for SQL Server}".

(** The seven adjacent f-strings, concatenated. *)
Definition make_connection_string
    (driver server database username password : string) : string :=
  ("DRIVER=" ++ driver ++ ";") ++
  ("SERVER=" ++ server ++ ",1433;") ++
  ("DATABASE=" ++ database ++ ";") ++
  ("UID=" ++ username ++ ";") ++
  ("PWD=" ++ password ++ ";") ++
  "Encrypt=no;" ++
  "TrustServerCertificate=yes;".

Definition connection_string : string :=
  make_connection_string driver server database username password.

(** Reading a descriptor back as ODBC does: fields end at [;], a field is
    a key, [=], and a value. *)
Fixpoint split_on (sep : ascii) (s : string) : list string :=
  match s with
  | EmptyString => [EmptyString]
  | String c s' =>
      if Ascii.eqb c sep then EmptyString :: split_on sep s'
      else
        match split_on sep s' with
        | [] => [String c EmptyString]
        | field :: fields => String c field :: fields
        end
  end.

Fixpoint cut_at (sep : ascii) (s : string) : option (string * string) :=
  match s with
  | EmptyString => None
  | String c s' =>
      if Ascii.eqb c sep then Some (EmptyString, s')
      else
        match cut_at sep s' with
        | Some (key, value) => Some (String c key, value)
        | None => None
        end
  end.

Definition odbc_fields (cs : string) : list (string * string) :=
  flat_map
    (fun field =>
       match cut_at "=" field with
       | Some kv => [kv]
       | None => []
       end)
    (split_on ";" cs).

(** ** The SQL statements (lines 27, 33, 38, 43) *)

Definition sql_version : string := "SELECT @@version;".
Definition sql_create : string :=
  "CREATE TABLE TestTable (id INT PRIMARY KEY, name NVARCHAR(50));".
Definition sql_insert : string :=
  "INSERT INTO TestTable (id, name) VALUES (1, 'John Doe');".
Definition sql_select : string := "SELECT * FROM TestTable;".

Definition sql_surface : list string :=
  [sql_version; sql_create; sql_insert; sql_select].

(** ** Messages *)

Definition msg_version : string := "SQL Server version:".
Definition msg_created : string := "Table created successfully.".
Definition msg_inserted : string := "Data inserted successfully.".
Definition error_prefix : string := "An error occurred:".

(** [print(a, b)] writes [str(a)], one space, [str(b)]. *)
Definition print2 (a b : string) : string := a ++ " " ++ b.

(** [str(ex)] for the exception bound by the [except] clause. *)
Definition exn_str (e : exn) : string :=
  match e with
  | PyodbcError _ text => text
  | NameError name => "name '" ++ name ++ "' is not defined"
  | OtherException text => text
  end.

Section Script.

Context {drv : Pyodbc}.

(** ** Trace of a run *)

Inductive event : Type :=
| EvConnect (cs : string) (r : result Connection)
| EvCursor (c : Connection) (r : result Cursor)
| EvExecute (k : Cursor) (sql : string) (r : result unit)
| EvFetchone (k : Cursor) (r : result (option Row))
| EvFetchall (k : Cursor) (r : result (list Row))
| EvCommit (c : Connection) (r : result unit)
| EvClose (c : Connection) (r : result unit)
| EvPrint (line : string).

(** ** Interpreter state: the world, the trace, the module's names *)

Record State : Type := mkState {
  world : World;
  trace : list event;
  conn : option Connection;
  cursor : option Cursor;
  row : option (option Row);
  rows : option (list Row)
}.

Definition initial (w : World) : State :=
  mkState w [] None None None None.

Definition M (A : Type) : Type := State -> result A * State.

Definition ret {A} (a : A) : M A := fun s => (Returns a, s).

Definition bind {A B} (m : M A) (f : A -> M B) : M B :=
  fun s =>
    match m s with
    | (Returns a, s') => f a s'
    | (Raises e, s') => (Raises e, s')
    end.

Definition raise {A} (e : exn) : M A := fun s => (Raises e, s).

End Script.

Notation "x <- m ;; k" := (bind m (fun x => k))
  (at level 61, m at next level, right associativity).
Notation "m ;;; k" := (bind m (fun _ => k))
  (at level 61, right associativity).

Section Runner.

Context {drv : Pyodbc}.

(** ** Primitive actions *)

Definition emit (ev : event) : M unit :=
  fun s =>
    (Returns tt,
     mkState (world s) (trace s ++ [ev]) (conn s) (cursor s) (row s) (rows s)).

(** [print(line)] *)
Definition print (line : string) : M unit := emit (EvPrint line).

(** A driver call: the world moves, and the call is logged with its result
    whether it returned or raised. *)
Definition call {A} (f : World -> result A * World) (log : result A -> event)
  : M A :=
  fun s =>
    let (r, w') := f (world s) in
    (r, mkState w' (trace s ++ [log r]) (conn s) (cursor s) (row s) (rows s)).

(** Reading a module-level name raises [NameError] while it is unbound. *)
Definition get_conn : M Connection :=
  fun s =>
    match conn s with
    | Some c => (Returns c, s)
    | None => (Raises (NameError "conn"), s)
    end.

Definition get_cursor : M Cursor :=
  fun s =>
    match cursor s with
    | Some k => (Returns k, s)
    | None => (Raises (NameError "cursor"), s)
    end.

Definition get_row : M (option Row) :=
  fun s =>
    match row s with
    | Some r => (Returns r, s)
    | None => (Raises (NameError "row"), s)
    end.

Definition get_rows : M (list Row) :=
  fun s =>
    match rows s with
    | Some rs => (Returns rs, s)
    | None => (Raises (NameError "rows"), s)
    end.

Definition set_conn (c : Connection) : M unit :=
  fun s =>
    (Returns tt,
     mkState (world s) (trace s) (Some c) (cursor s) (row s) (rows s)).

Definition set_cursor (k : Cursor) : M unit :=
  fun s =>
    (Returns tt,
     mkState (world s) (trace s) (conn s) (Some k) (row s) (rows s)).

Definition set_row (r : option Row) : M unit :=
  fun s =>
    (Returns tt,
     mkState (world s) (trace s) (conn s) (cursor s) (Some r) (rows s)).

Definition set_rows (rs : list Row) : M unit :=
  fun s =>
    (Returns tt,
     mkState (world s) (trace s) (conn s) (cursor s) (row s) (Some rs)).

(** [str(row)] for the value of the name [row]: a row or [None]. *)
Definition str_row (r : option Row) : string :=
  match r with
  | Some r => row_str r
  | None => "None"
  end.

(** [bool(conn)]: [pyodbc.Connection] defines neither [__bool__] nor
    [__len__], so every connection object is true. *)
Definition connection_truth (c : Connection) : bool := true.

(** [for x in xs: body] *)
Fixpoint for_each {A} (xs : list A) (body : A -> M unit) : M unit :=
  match xs with
  | [] => ret tt
  | x :: xs' => body x ;;; for_each xs' body
  end.

(** [try: body / except <matches> as ex: handler / finally: final].
    An exception the clause does not match stays pending while [final]
    runs; an exception raised by [final] replaces the pending one. *)
Definition try_except_finally
    (body : M unit) (matches : exn -> bool) (handler : exn -> M unit)
    (final : M unit) : M unit :=
  fun s =>
    let after := fun (pending : result unit) (s' : State) =>
      match final s' with
      | (Returns _, s'') => (pending, s'')
      | (Raises e, s'') => (Raises e, s'')
      end in
    match body s with
    | (Returns _, s1) => after (Returns tt) s1
    | (Raises e, s1) =>
        if matches e then
          match handler e s1 with
          | (Returns _, s2) => after (Returns tt) s2
          | (Raises e', s2) => after (Raises e') s2
          end
        else after (Raises e) s1
    end.

(** Lines 45-46: [for row in rows: print(row)]. *)
Definition print_rows (rs : list Row) : M unit :=
  for_each rs (fun r => set_row (Some r) ;;; r <- get_row ;; print (str_row r)).

(** ** The script (lines 21-54) *)

(** Lines 23-46. *)
Definition try_body : M unit :=
  (* conn = pyodbc.connect(connection_string) *)
  c <- call (connect connection_string) (EvConnect connection_string) ;;
  set_conn c ;;;
  (* cursor = conn.cursor() *)
  c <- get_conn ;;
  k <- call (conn_cursor c) (EvCursor c) ;;
  set_cursor k ;;;
  (* cursor.execute("SELECT @@version;") *)
  k <- get_cursor ;;
  call (execute k sql_version) (EvExecute k sql_version) ;;;
  (* row = cursor.fetchone() *)
  k <- get_cursor ;;
  r <- call (fetchone k) (EvFetchone k) ;;
  set_row r ;;;
  print msg_version ;;;
  r <- get_row ;;
  print (str_row r) ;;;
  (* cursor.execute("CREATE TABLE ...") ; conn.commit() *)
  k <- get_cursor ;;
  call (execute k sql_create) (EvExecute k sql_create) ;;;
  c <- get_conn ;;
  call (commit c) (EvCommit c) ;;;
  print msg_created ;;;
  (* cursor.execute("INSERT ...") ; conn.commit() *)
  k <- get_cursor ;;
  call (execute k sql_insert) (EvExecute k sql_insert) ;;;
  c <- get_conn ;;
  call (commit c) (EvCommit c) ;;;
  print msg_inserted ;;;
  (* cursor.execute("SELECT * FROM TestTable;") ; rows = cursor.fetchall() *)
  k <- get_cursor ;;
  call (execute k sql_select) (EvExecute k sql_select) ;;;
  k <- get_cursor ;;
  rs <- call (fetchall k) (EvFetchall k) ;;
  set_rows rs ;;;
  (* for row in rows: print(row) *)
  rs <- get_rows ;;
  print_rows rs.

(** Lines 48-49. *)
Definition handler (ex : exn) : M unit :=
  print (print2 error_prefix (exn_str ex)).

(** Lines 51-54. *)
Definition finally_block : M unit :=
  c <- get_conn ;;
  if connection_truth c then call (close c) (EvClose c) else ret tt.

Definition script : M unit :=
  try_except_finally try_body is_pyodbc_error handler finally_block.

(** A run of the script from a state of the outside world. *)
Definition run (w : World) : result unit * State := script (initial w).

Definition outcome (w : World) : result unit := fst (run w).
Definition run_trace (w : World) : list event := trace (snd (run w)).

(** ** Observations on a trace *)

(** The lines written to standard output. *)
Fixpoint stdout (tr : list event) : list string :=
  match tr with
  | [] => []
  | EvPrint line :: tr' => line :: stdout tr'
  | _ :: tr' => stdout tr'
  end.

(** The statement texts handed to [cursor.execute]. *)
Fixpoint submitted (tr : list event) : list string :=
  match tr with
  | [] => []
  | EvExecute _ sql _ :: tr' => sql :: submitted tr'
  | _ :: tr' => submitted tr'
  end.

(** The exception a driver call raised, if the event is a call that did. *)
Definition raised_by {A} (r : result A) : option exn :=
  match r with
  | Returns _ => None
  | Raises e => Some e
  end.

Definition event_raised (ev : event) : option exn :=
  match ev with
  | EvConnect _ r => raised_by r
  | EvCursor _ r => raised_by r
  | EvExecute _ _ r => raised_by r
  | EvFetchone _ r => raised_by r
  | EvFetchall _ r => raised_by r
  | EvCommit _ r => raised_by r
  | EvClose _ r => raised_by r
  | EvPrint _ => None
  end.

Definition is_close (ev : event) : bool :=
  match ev with
  | EvClose _ _ => true
  | _ => false
  end.

Definition is_commit (ev : event) : bool :=
  match ev with
  | EvCommit _ _ => true
  | _ => false
  end.

(** The event is not a driver call that raised. *)
Definition succeeded (ev : event) : bool :=
  match event_raised ev with
  | None => true
  | Some _ => false
  end.

(** The descriptors handed to [pyodbc.connect]. *)
Fixpoint connects (tr : list event) : list string :=
  match tr with
  | [] => []
  | EvConnect cs _ :: tr' => cs :: connects tr'
  | _ :: tr' => connects tr'
  end.

(** [conn.close()] on [c] is the last thing the run does, and its only
    [close]. *)
Definition closes_last (c : Connection) (tr : list event) : Prop :=
  exists pre r, tr = pre ++ [EvClose c r] /\ existsb is_close pre = false.

(** What the [except] clause writes for an exception raised in the [try]
    block: one line for a [pyodbc.Error], nothing otherwise. *)
Definition reported (e : exn) : list event :=
  if is_pyodbc_error e
  then [EvPrint (print2 error_prefix (exn_str e))]
  else [].

(** How the script ends when the [try] block raised [e] and [conn.close()]
    gave [r]. *)
Definition ending (e : exn) (r : result unit) : result unit :=
  match r with
  | Raises e' => Raises e'
  | Returns _ => if is_pyodbc_error e then Returns tt else Raises e
  end.

(** ** The trace against the driver

    [answer ev w]: the driver asked again, in the world [w], for the call
    that [ev] logs: the event with the driver's own result, and the world
    the driver leaves.  A printed line asks the driver nothing. *)
Definition answer (ev : event) (w : World) : event * World :=
  match ev with
  | EvConnect cs _ => (EvConnect cs (fst (connect cs w)), snd (connect cs w))
  | EvCursor c _ =>
      (EvCursor c (fst (conn_cursor c w)), snd (conn_cursor c w))
  | EvExecute k sql _ =>
      (EvExecute k sql (fst (execute k sql w)), snd (execute k sql w))
  | EvFetchone k _ => (EvFetchone k (fst (fetchone k w)), snd (fetchone k w))
  | EvFetchall k _ => (EvFetchall k (fst (fetchall k w)), snd (fetchall k w))
  | EvCommit c _ => (EvCommit c (fst (commit c w)), snd (commit c w))
  | EvClose c _ => (EvClose c (fst (close c w)), snd (close c w))
  | EvPrint line => (EvPrint line, w)
  end.

(** The calls of a trace made on the driver one after the other, from the
    world [w]: what the driver answers, and the world at the end. *)
Fixpoint replay (w : World) (tr : list event) : list event * World :=
  match tr with
  | [] => ([], w)
  | ev :: tr' =>
      let (ev', w1) := answer ev w in
      let (tr'', w2) := replay w1 tr' in
      (ev' :: tr'', w2)
  end.

(** [driven w tr w']: the trace [tr] is what the driver did between the
    worlds [w] and [w']: every call logged in [tr] was answered by the
    driver as logged, in the world the calls before it left, and [w'] is
    the world after the last of them. *)
Definition driven (w : World) (tr : list event) (w' : World) : Prop :=
  replay w tr = (tr, w').

(** The event leaves the script running to a normal end: a call that
    returned, a line printed, or a call of the [try] block that raised what
    the [except] clause matches. *)
Definition handled (ev : event) : bool :=
  match event_raised ev with
  | None => true
  | Some e => negb (is_close ev) && is_pyodbc_error e
  end.

(** The handles an event is called on come from this trace: a cursor from
    [conn.cursor()] on the connection that [pyodbc.connect] returned. *)
Definition own_handles (tr : list event) (ev : event) : Prop :=
  match ev with
  | EvExecute k _ _ | EvFetchone k _ | EvFetchall k _ =>
      exists c,
        In (EvConnect connection_string (Returns c)) tr /\
        In (EvCursor c (Returns k)) tr
  | EvCursor c _ | EvCommit c _ | EvClose c _ =>
      In (EvConnect connection_string (Returns c)) tr
  | EvConnect _ _ | EvPrint _ => True
  end.

(** The value of [row] after the loop over [rs]. *)
Definition row_after (rs : list Row) (before : option (option Row))
  : option (option Row) :=
  fold_left (fun _ r => Some (Some r)) rs before.

End Runner.

(** ** A reference driver

    A small instance of the interface, used to run the script on concrete
    worlds: one server that knows the four statements of the script, with a
    login that may be refused and an interrupt that may arrive during the
    n-th driver call.  It is an instance among others; the theorems below
    are stated for every instance. *)
Module Reference.

Inductive sqlval : Type :=
| SqlInt (z : Z)
| SqlText (s : string).

(** [repr] of a column value, for text without quotes or escapes. *)
Definition repr_val (v : sqlval) : string :=
  match v with
  | SqlInt z => NilZero.string_of_int (Z.to_int z)
  | SqlText s => "'" ++ s ++ "'"
  end.

(** [repr] of a row is that of the tuple of its values. *)
Definition repr_row (r : list sqlval) : string :=
  match r with
  | [v] => "(" ++ repr_val v ++ ",)"
  | _ => "(" ++ String.concat ", " (map repr_val r) ++ ")"
  end.

Record server_state : Type := mkServer {
  login_ok : bool;
  interrupt_in : option nat;
  has_table : bool;
  table : list (Z * string);
  pending : list (list sqlval)
}.

Definition banner : string := "Microsoft SQL Server 2022".

Definition already_exists : exn :=
  PyodbcError "ProgrammingError"
    "There is already an object named 'TestTable' in the database.".
Definition no_such_table : exn :=
  PyodbcError "ProgrammingError" "Invalid object name 'TestTable'.".
Definition duplicate_key : exn :=
  PyodbcError "IntegrityError"
    "Violation of PRIMARY KEY constraint. Cannot insert duplicate key.".
Definition login_failed : exn :=
  PyodbcError "InterfaceError" "Login failed for user 'sa'.".
Definition syntax_error : exn :=
  PyodbcError "ProgrammingError" "Incorrect syntax.".
Definition interrupt : exn := OtherException "KeyboardInterrupt".

(** Every call first counts down to the interrupt, delivered once. *)
Definition guarded {A} (f : server_state -> result A * server_state)
    (w : server_state) : result A * server_state :=
  match interrupt_in w with
  | Some O =>
      (Raises interrupt,
       mkServer (login_ok w) None (has_table w) (table w) (pending w))
  | Some (S n) =>
      f (mkServer (login_ok w) (Some n) (has_table w) (table w) (pending w))
  | None => f w
  end.

Definition has_key (id : Z) (t : list (Z * string)) : bool :=
  existsb (fun r => Z.eqb (fst r) id) t.

Definition run_statement (sql : string) (w : server_state)
  : result unit * server_state :=
  if String.eqb sql sql_version then
    (Returns tt,
     mkServer (login_ok w) (interrupt_in w) (has_table w) (table w)
       [[SqlText banner]])
  else if String.eqb sql sql_create then
    if has_table w then (Raises already_exists, w)
    else
      (Returns tt,
       mkServer (login_ok w) (interrupt_in w) true [] (pending w))
  else if String.eqb sql sql_insert then
    if negb (has_table w) then (Raises no_such_table, w)
    else if has_key 1 (table w) then (Raises duplicate_key, w)
    else
      (Returns tt,
       mkServer (login_ok w) (interrupt_in w) true
         (table w ++ [(1%Z, "John Doe")]) (pending w))
  else if String.eqb sql sql_select then
    if negb (has_table w) then (Raises no_such_table, w)
    else
      (Returns tt,
       mkServer (login_ok w) (interrupt_in w) true (table w)
         (map (fun r => [SqlInt (fst r); SqlText (snd r)]) (table w)))
  else (Raises syntax_error, w).

Definition driver : Pyodbc := {|
  World := server_state;
  Connection := unit;
  Cursor := unit;
  Row := list sqlval;
  row_str := repr_row;
  connect := fun _ =>
    guarded (fun w =>
      if login_ok w then (Returns tt, w) else (Raises login_failed, w));
  conn_cursor := fun _ => guarded (fun w => (Returns tt, w));
  execute := fun _ sql => guarded (run_statement sql);
  fetchone := fun _ =>
    guarded (fun w =>
      match pending w with
      | [] => (Returns None, w)
      | r :: rest =>
          (Returns (Some r),
           mkServer (login_ok w) (interrupt_in w) (has_table w) (table w) rest)
      end);
  fetchall := fun _ =>
    guarded (fun w =>
      (Returns (pending w),
       mkServer (login_ok w) (interrupt_in w) (has_table w) (table w) []));
  commit := fun _ => guarded (fun w => (Returns tt, w));
  close := fun _ => guarded (fun w => (Returns tt, w))
|}.

(** The same driver on a server whose queries give no row to
    [fetchone]. *)
Definition rowless : Pyodbc := {|
  World := server_state;
  Connection := unit;
  Cursor := unit;
  Row := list sqlval;
  row_str := repr_row;
  connect := @connect driver;
  conn_cursor := @conn_cursor driver;
  execute := @execute driver;
  fetchone := fun _ => guarded (fun w => (Returns None, w));
  fetchall := @fetchall driver;
  commit := @commit driver;
  close := @close driver
|}.

(** A reachable server with no [TestTable]. *)
Definition fresh : server_state := mkServer true None false [] [].

(** The same server after one full run of the script. *)
Definition populated : server_state :=
  mkServer true None true [(1%Z, "John Doe")] [].

(** A server that refuses the login. *)
Definition locked : server_state := mkServer false None false [] [].

(** A server on which the n-th driver call (from 0) is interrupted. *)
Definition interrupted (n : nat) : server_state :=
  mkServer true (Some n) false [] [].

End Reference.

(** * Properties of the script *)

Section Properties.

Context {drv : Pyodbc}.

(** ** The loop *)

Lemma print_rows_run (rs : list Row) (s : State) :
  print_rows rs s =
  (Returns tt,
   mkState (world s) (trace s ++ map (fun r => EvPrint (row_str r)) rs)
     (conn s) (cursor s) (row_after rs (row s)) (rows s)).
Proof.
  revert s; induction rs as [|r rs IH]; intros s.
  - cbn. rewrite app_nil_r. destruct s; reflexivity.
  - unfold print_rows in *. cbn [for_each]. unfold bind at 1.
    cbn [set_row get_row print emit bind row str_row].
    rewrite IH. cbn. rewrite <- app_assoc. reflexivity.
Qed.

(** ** Traces as lists *)

Lemma nil_split (pre : list event) ev post : [] = pre ++ ev :: post -> False.
Proof. destruct pre; discriminate. Qed.

Lemma cons_split (a : event) l pre ev post :
  a :: l = pre ++ ev :: post ->
  (pre = [] /\ ev = a /\ post = l) \/
  (exists pre', pre = a :: pre' /\ l = pre' ++ ev :: post).
Proof.
  destruct pre as [|b pre]; cbn; intros H; injection H as -> ->.
  - left; repeat split.
  - right; exists pre; split; reflexivity.
Qed.

Lemma prints_split (rs : list Row) tl pre ev post :
  map (fun r => EvPrint (row_str r)) rs ++ tl = pre ++ ev :: post ->
  (exists line, ev = EvPrint line) \/
  (exists pre',
      pre = map (fun r => EvPrint (row_str r)) rs ++ pre' /\
      tl = pre' ++ ev :: post).
Proof.
  revert pre; induction rs as [|r rs IH]; cbn; intros pre H.
  - right; exists pre; split; [reflexivity | exact H].
  - apply cons_split in H. destruct H as [(_ & -> & _) | (pre' & -> & H)].
    + left; eexists; reflexivity.
    + destruct (IH _ H) as [Hp | (pre'' & -> & Htl)]; [left; exact Hp |].
      right; exists pre''; split; [reflexivity | exact Htl].
Qed.

Lemma stdout_app tr1 tr2 : stdout (tr1 ++ tr2) = stdout tr1 ++ stdout tr2.
Proof.
  induction tr1 as [|ev tr1 IH]; [reflexivity |].
  destruct ev; cbn; rewrite IH; reflexivity.
Qed.

Lemma stdout_prints (rs : list Row) :
  stdout (map (fun r => EvPrint (row_str r)) rs) = map row_str rs.
Proof. induction rs as [|r rs IH]; cbn; [|rewrite IH]; reflexivity. Qed.

Lemma submitted_app tr1 tr2 :
  submitted (tr1 ++ tr2) = submitted tr1 ++ submitted tr2.
Proof.
  induction tr1 as [|ev tr1 IH]; [reflexivity |].
  destruct ev; cbn; rewrite IH; reflexivity.
Qed.

Lemma submitted_prints (rs : list Row) :
  submitted (map (fun r => EvPrint (row_str r)) rs) = [].
Proof. induction rs as [|r rs IH]; cbn; [reflexivity | exact IH]. Qed.

Lemma connects_prints (rs : list Row) tl :
  connects (map (fun r => EvPrint (row_str r)) rs ++ tl) = connects tl.
Proof. induction rs as [|r rs IH]; cbn; [reflexivity | exact IH]. Qed.

Lemma append_assoc (a b c : string) :
  ((a ++ b) ++ c)%string = (a ++ (b ++ c))%string.
Proof. induction a as [|x a IH]; cbn; [|rewrite IH]; reflexivity. Qed.

Lemma no_close_in_prints (rs : list Row) :
  existsb is_close (map (fun r => EvPrint (row_str r)) rs) = false.
Proof. induction rs as [|r rs IH]; cbn; [reflexivity | exact IH]. Qed.

(** ** Case analysis on a run

    A run is decided by what the driver answers to each call in turn.
    [explore] unfolds the script and splits on every answer; each case
    leaves the trace of that exit path as an explicit list. *)

Ltac call_cases :=
  match goal with
  | |- context [connect ?a ?w] =>
      destruct (connect a w) as [[?c|?e] ?w] eqn:?Hconnect
  | |- context [conn_cursor ?a ?w] =>
      destruct (conn_cursor a w) as [[?k|?e] ?w] eqn:?Hcursor
  | |- context [execute ?a ?q ?w] =>
      destruct (execute a q w) as [[[]|?e] ?w] eqn:?Hexecute
  | |- context [fetchone ?a ?w] =>
      destruct (fetchone a w) as [[?v|?e] ?w] eqn:?Hfetchone
  | |- context [fetchall ?a ?w] =>
      destruct (fetchall a w) as [[?rs|?e] ?w] eqn:?Hfetchall
  | |- context [commit ?a ?w] =>
      destruct (commit a w) as [[[]|?e] ?w] eqn:?Hcommit
  | |- context [close ?a ?w] =>
      destruct (close a w) as [[[]|?e] ?w] eqn:?Hclose
  | |- context [is_pyodbc_error ?e] =>
      is_var e; destruct (is_pyodbc_error e) eqn:?Hclass
  end.

Ltac reduce_script :=
  cbv beta iota zeta delta
    [bind call get_conn get_cursor get_row get_rows set_conn set_cursor
     set_row set_rows print emit ret connection_truth raise
     world trace conn cursor row rows fst snd];
  cbn [app].

Ltac explore :=
  unfold run_trace, outcome, run, script, try_except_finally, try_body,
    finally_block, handler, initial;
  reduce_script;
  repeat (first [rewrite print_rows_run | call_cases]; reduce_script).

(** Every way of writing an explicit trace as [pre ++ ev :: post]. *)
Ltac split_trace H :=
  lazymatch type of H with
  | [] = _ ++ _ :: _ => exfalso; exact (nil_split _ _ _ H)
  | _ :: _ = _ ++ _ :: _ =>
      apply cons_split in H;
      destruct H as [(? & ? & ?) | (? & ? & H)];
      [subst | subst; split_trace H]
  | map _ _ ++ _ = _ ++ _ :: _ =>
      apply prints_split in H;
      destruct H as [(? & ?) | (? & ? & H)];
      [subst | subst; split_trace H]
  end.

(** A run starts with its one call to [pyodbc.connect]. *)
Lemma first_event (w : World) :
  exists rest,
    run_trace w =
      EvConnect connection_string (fst (connect connection_string w)) :: rest /\
    connects rest = [].
Proof.
  explore; cbn [fst]; eexists; (split; [reflexivity |]);
    cbn [connects]; rewrite ?connects_prints; reflexivity.
Qed.

(** ** Where an exception raised in the [try] block leads

    The call that raised is the last of the block.  What follows is the
    line of the handler (for a [pyodbc.Error] only) and the cleanup: on an
    unbound [conn] a [NameError], otherwise one [close] on the connection
    that was opened. *)
Lemma raise_shape (w : World) pre ev post e :
  run_trace w = pre ++ ev :: post ->
  is_close ev = false ->
  event_raised ev = Some e ->
  (pre = [] /\ post = reported e /\ outcome w = Raises (NameError "conn")) \/
  (exists c pre' r,
      pre = EvConnect connection_string (Returns c) :: pre' /\
      forallb succeeded pre' = true /\
      post = reported e ++ [EvClose c r] /\
      outcome w = ending e r).
Proof.
  revert pre ev post e. explore; intros pre ev post e' H Hcl Hev;
    split_trace H; cbn in Hcl, Hev; try discriminate;
    injection Hev as <-; unfold reported, ending; rewrite ?Hclass;
    solve [ left; repeat split
          | right; do 3 eexists; repeat split ].
Qed.

Lemma in_prints_tail (rs : list Row) tl ev :
  In ev (map (fun r => EvPrint (row_str r)) rs ++ tl) ->
  (exists line, ev = EvPrint line) \/ In ev tl.
Proof.
  intros H. apply in_app_or in H. destruct H as [H | H]; [left | right; exact H].
  apply in_map_iff in H. destruct H as (r & <- & _). eexists; reflexivity.
Qed.

Lemma succeeded_prints (rs : list Row) tl :
  forallb succeeded (map (fun r => EvPrint (row_str r)) rs ++ tl) =
  forallb succeeded tl.
Proof. induction rs as [|r rs IH]; cbn; [reflexivity | exact IH]. Qed.

Lemma ends_cons (a x : event) l :
  (exists pre, l = pre ++ [x]) -> exists pre, a :: l = pre ++ [x].
Proof. intros (pre & ->). exists (a :: pre). reflexivity. Qed.

Lemma handled_prints (rs : list Row) tl :
  forallb handled (map (fun r => EvPrint (row_str r)) rs ++ tl) =
  forallb handled tl.
Proof. induction rs as [|r rs IH]; cbn; [reflexivity | exact IH]. Qed.

Lemma closes_last_one c r : closes_last c [EvClose c r].
Proof. exists [], r. split; reflexivity. Qed.

Lemma closes_last_cons c ev tr :
  is_close ev = false -> closes_last c tr -> closes_last c (ev :: tr).
Proof.
  intros Hev (pre & r & -> & Hpre). exists (ev :: pre), r.
  split; [reflexivity |]. cbn. rewrite Hev. exact Hpre.
Qed.

Lemma closes_last_prints c (rs : list Row) tr :
  closes_last c tr ->
  closes_last c (map (fun r => EvPrint (row_str r)) rs ++ tr).
Proof.
  intros H. induction rs as [|r rs IH]; [exact H |].
  cbn. apply closes_last_cons; [reflexivity | exact IH].
Qed.

(** Every way for an event to be in an explicit trace. *)
Ltac find_in H :=
  lazymatch type of H with
  | In _ [] => destruct H
  | In _ (_ :: _) =>
      destruct H as [H | H];
      [ first [ discriminate H
              | injection H; intros; subst;
                repeat match goal with
                       | E : @eq string _ _ |- _ => discriminate E
                       end ]
      | find_in H ]
  | In _ (map _ _ ++ _) =>
      apply in_prints_tail in H;
      destruct H as [(? & H) | H]; [discriminate H | find_in H]
  end.

(** ** The trace of a run is the driver's *)

Lemma replay_length (tr : list event) w :
  length (fst (replay w tr)) = length tr.
Proof.
  revert w; induction tr as [|ev tr IH]; intros w; [reflexivity |].
  cbn [replay]. destruct (answer ev w) as [ev' w1].
  specialize (IH w1). destruct (replay w1 tr) as [tr'' w2].
  cbn in *. rewrite IH. reflexivity.
Qed.

Lemma replay_app (tr1 tr2 : list event) w :
  replay w (tr1 ++ tr2) =
  (fst (replay w tr1) ++ fst (replay (snd (replay w tr1)) tr2),
   snd (replay (snd (replay w tr1)) tr2)).
Proof.
  revert w; induction tr1 as [|ev tr1 IH]; intros w.
  - cbn. destruct (replay w tr2); reflexivity.
  - cbn [app replay]. destruct (answer ev w) as [ev' w1]. rewrite IH.
    destruct (replay w1 tr1) as [a wa]. cbn [fst snd].
    destruct (replay wa tr2) as [b wb]. reflexivity.
Qed.

Lemma replay_prints (rs : list Row) w :
  replay w (map (fun r => EvPrint (row_str r)) rs) =
  (map (fun r => EvPrint (row_str r)) rs, w).
Proof.
  induction rs as [|r rs IH]; [reflexivity |].
  cbn [map replay answer]. rewrite IH. reflexivity.
Qed.

Lemma app_same_length (a b tr1 tr2 : list event) :
  length a = length tr1 -> a ++ b = tr1 ++ tr2 -> a = tr1 /\ b = tr2.
Proof.
  revert tr1; induction a as [|x a IH]; intros [|y tr1] Hlen H;
    try discriminate Hlen.
  - split; [reflexivity | exact H].
  - cbn in H. injection H as -> H. injection Hlen as Hlen.
    destruct (IH _ Hlen H) as [-> ->]. split; reflexivity.
Qed.

Lemma driven_app_inv (tr1 tr2 : list event) w w' :
  driven w (tr1 ++ tr2) w' ->
  exists wm, driven w tr1 wm /\ driven wm tr2 w'.
Proof.
  unfold driven. rewrite replay_app. intros H.
  pose proof (replay_length tr1 w) as Hlen.
  destruct (replay w tr1) as [a wm] eqn:E1. cbn [fst snd] in *.
  destruct (replay wm tr2) as [b wb] eqn:E2. cbn [fst snd] in *.
  injection H as Happ ->.
  destruct (app_same_length _ _ _ _ Hlen Happ) as [-> ->].
  exists wm. split; [reflexivity | exact E2].
Qed.

Lemma driven_app (tr1 tr2 : list event) w wm w' :
  driven w tr1 wm -> driven wm tr2 w' -> driven w (tr1 ++ tr2) w'.
Proof.
  unfold driven. intros H1 H2. rewrite replay_app, H1. cbn [fst snd].
  rewrite H2. reflexivity.
Qed.

Lemma driven_cons (ev : event) tr w w' :
  driven w (ev :: tr) w' ->
  ev = fst (answer ev w) /\ driven (snd (answer ev w)) tr w'.
Proof.
  unfold driven. cbn [replay].
  destruct (answer ev w) as [ev' w1].
  destruct (replay w1 tr) as [tr'' w2] eqn:E.
  intros H. injection H as -> -> ->. split; [reflexivity | exact E].
Qed.

Lemma driven_at (pre : list event) ev post w w' :
  driven w (pre ++ ev :: post) w' ->
  exists w0,
    driven w pre w0 /\
    ev = fst (answer ev w0) /\
    driven (snd (answer ev w0)) post w'.
Proof.
  intros H. apply driven_app_inv in H. destruct H as (w0 & Hpre & H).
  apply driven_cons in H. destruct H as [Hev Hpost].
  exists w0. repeat split; assumption.
Qed.

Lemma driven_nil w w' : driven w [] w' -> w' = w.
Proof. unfold driven. cbn. intros H. injection H as <-. reflexivity. Qed.

(** The whole trace of a run is the driver's: each call was made on the
    driver, in order, answered as logged, and the driver was asked nothing
    else, since the world at the end is the one these calls leave. *)
Lemma run_driven (w : World) :
  driven w (run_trace w) (world (snd (run w))).
Proof.
  unfold driven. explore; cbn [replay answer];
    repeat (rewrite ?replay_app, ?replay_prints; cbn [replay answer fst snd];
            match goal with
            | E : ?call = (_, _) |- context [?call] => rewrite E
            end);
    cbn [fst snd app]; reflexivity.
Qed.

(** ** The claims *)

(** C1: in a run in which every driver call succeeds, where the version
    query gives the row [v] and the final selection gives exactly one row
    [r] (on a fresh table, the row [(1, 'John Doe')] just inserted), the
    script ends normally and its output is, in order: the heading
    [SQL Server version:] with the version row, [Table created
    successfully.], [Data inserted successfully.], and the one row. *)
Theorem full_run_output (w : World) k1 k2 (v r : Row) :
  forallb succeeded (run_trace w) = true ->
  In (EvFetchone k1 (Returns (Some v))) (run_trace w) ->
  In (EvFetchall k2 (Returns [r])) (run_trace w) ->
  stdout (run_trace w) =
    [msg_version; row_str v; msg_created; msg_inserted; row_str r] /\
  outcome w = Returns tt.
Proof.
  revert k1 k2 v r. explore; intros k1 k2 v' r Hall Hone Hrows;
    cbn [forallb succeeded event_raised raised_by andb] in Hall;
    rewrite ?succeeded_prints in Hall; try discriminate Hall.
  find_in Hone. find_in Hrows. split; reflexivity.
Qed.

(** The texts logged for [cursor.execute]: an initial part of the four
    statements, and all four unless a call of the [try] block raised. *)
Lemma submitted_prefix (w : World) :
  (exists n, submitted (run_trace w) = firstn n sql_surface) /\
  (forallb (fun ev => is_close ev || succeeded ev) (run_trace w) = true ->
   submitted (run_trace w) = sql_surface).
Proof.
  explore; (split;
    [ cbn [submitted]; rewrite ?submitted_app, ?submitted_prints;
      first [ exists 0; reflexivity | exists 1; reflexivity
            | exists 2; reflexivity | exists 3; reflexivity
            | exists 4; reflexivity ]
    | intros Hall; cbn in Hall; try discriminate Hall;
      cbn [submitted]; rewrite ?submitted_app, ?submitted_prints;
      reflexivity ]).
Qed.

(** C2: the statements submitted to the driver are an initial part of the
    four statements of the script, in their order, and all four unless a
    driver call of the [try] block raised.  They are submitted to the
    driver: the trace of the run is the driver's own ([driven]), so each
    logged statement is a call of the driver's [execute] with that text, in
    the world the calls before it left, answered as logged, and the driver
    is asked for nothing that is not in the trace. *)
Theorem statements_in_order (w : World) :
  driven w (run_trace w) (world (snd (run w))) /\
  (forall pre k sql r post,
      run_trace w = pre ++ EvExecute k sql r :: post ->
      exists w0,
        driven w pre w0 /\
        r = fst (execute k sql w0) /\
        driven (snd (execute k sql w0)) post (world (snd (run w)))) /\
  (exists n, submitted (run_trace w) = firstn n sql_surface) /\
  (forallb (fun ev => is_close ev || succeeded ev) (run_trace w) = true ->
   submitted (run_trace w) = sql_surface).
Proof.
  split; [exact (run_driven w) |]. split; [| exact (submitted_prefix w)].
  intros pre k sql r post H.
  pose proof (run_driven w) as Hd. rewrite H in Hd.
  apply driven_at in Hd. destruct Hd as (w0 & Hpre & Hev & Hpost).
  cbn [answer fst snd] in Hev, Hpost. injection Hev as Hr.
  exists w0. repeat split; assumption.
Qed.

(** C3, as the code behaves: when [pyodbc.connect] raises, whatever the
    exception, [conn] is never bound and the cleanup block's [if conn:]
    ends the script with a [NameError]. *)
Theorem failed_connect_ends_in_NameError (w : World) (e : exn) :
  fst (connect connection_string w) = Raises e ->
  outcome w = Raises (NameError "conn").
Proof.
  explore; cbn; intros H; try discriminate H; reflexivity.
Qed.

(** C4: when a driver call of the [try] block raises a [pyodbc.Error], no
    later call of the block is made: what follows in the trace is the line
    of the handler and then the cleanup, and the script ends as the cleanup
    ends, not with the driver's error. *)
Theorem driver_error_stops_run (w : World) pre ev post cls text :
  run_trace w = pre ++ ev :: post ->
  is_close ev = false ->
  event_raised ev = Some (PyodbcError cls text) ->
  (post = [EvPrint (print2 error_prefix text)] /\
   outcome w = Raises (NameError "conn")) \/
  (exists c r,
      post = [EvPrint (print2 error_prefix text); EvClose c r] /\
      outcome w = r).
Proof.
  intros H Hcl Hev.
  destruct (raise_shape w pre ev post _ H Hcl Hev)
    as [(_ & -> & Hout) | (c & pre' & r & _ & _ & -> & Hout)].
  - left. split; [reflexivity | exact Hout].
  - right. exists c, r. split; [reflexivity |].
    rewrite Hout. destruct r as [[]|e]; reflexivity.
Qed.

(** With an open connection the trace ends with its one [close]. *)
Lemma close_is_last (w : World) (c : Connection) :
  fst (connect connection_string w) = Returns c ->
  closes_last c (run_trace w).
Proof.
  explore; cbn; intros H; try discriminate H; injection H as ->;
    repeat first [ apply closes_last_one
                 | apply closes_last_prints
                 | apply closes_last_cons; [reflexivity |] ].
Qed.

(** C5: when [pyodbc.connect] returned a connection, the run ends, on
    every exit path, by calling the driver's [close] on that connection:
    [close] is the last event of the trace and its only [close], it is
    made on the driver in the world the calls before it left, its logged
    result is the driver's, and the world after the run is the one that
    [close] left. *)
Theorem opened_connection_is_closed (w : World) (c : Connection) :
  fst (connect connection_string w) = Returns c ->
  closes_last c (run_trace w) /\
  exists pre w0,
    run_trace w = pre ++ [EvClose c (fst (close c w0))] /\
    existsb is_close pre = false /\
    driven w pre w0 /\
    world (snd (run w)) = snd (close c w0).
Proof.
  intros Hopen. pose proof (close_is_last w c Hopen) as Hlast.
  split; [exact Hlast |].
  destruct Hlast as (pre & r & Htr & Hpre).
  pose proof (run_driven w) as Hd. rewrite Htr in Hd.
  apply driven_at in Hd. destruct Hd as (w0 & Hd & Hev & Hend).
  cbn [answer fst snd] in Hev, Hend. injection Hev as ->.
  apply driven_nil in Hend.
  exists pre, w0. repeat split; assumption.
Qed.

(** C6: whichever call of the [try] block raised it and whatever its class,
    a [pyodbc.Error] is handled by the one [except] clause: the output of
    the run is what was printed before the call, followed by one line made
    of the fixed prefix and [str(ex)]. *)
Theorem driver_errors_reported_uniformly (w : World) pre ev post cls text :
  run_trace w = pre ++ ev :: post ->
  is_close ev = false ->
  event_raised ev = Some (PyodbcError cls text) ->
  stdout (run_trace w) = stdout pre ++ [(error_prefix ++ " " ++ text)%string].
Proof.
  intros H Hcl Hev. rewrite H, stdout_app.
  assert (Hq : stdout [ev] = []) by (destruct ev; cbn in *; congruence).
  change (ev :: post) with ([ev] ++ post). rewrite stdout_app, Hq.
  destruct (raise_shape w pre ev post _ H Hcl Hev)
    as [(_ & -> & _) | (c & pre' & r & _ & _ & -> & _)]; reflexivity.
Qed.

(** The trace of a run whose table creation was refused. *)
Lemma existing_table_trace (w : World) k cls text :
  In (EvExecute k sql_create (Raises (PyodbcError cls text))) (run_trace w) ->
  exists c v r,
    run_trace w =
      [EvConnect connection_string (Returns c); EvCursor c (Returns k);
       EvExecute k sql_version (Returns tt); EvFetchone k (Returns v);
       EvPrint msg_version; EvPrint (str_row v);
       EvExecute k sql_create (Raises (PyodbcError cls text));
       EvPrint (print2 error_prefix text); EvClose c r] /\
    stdout (run_trace w) =
      [msg_version; str_row v; (error_prefix ++ " " ++ text)%string] /\
    submitted (run_trace w) = [sql_version; sql_create] /\
    closes_last c (run_trace w).
Proof.
  revert k cls text. explore; intros k' cls text H; find_in H;
    try discriminate;
    do 3 eexists; (split; [reflexivity |]); (split; [reflexivity |]);
    (split; [reflexivity |]);
    repeat first [ apply closes_last_one
                 | apply closes_last_cons; [reflexivity |] ].
Qed.

(** C7: when the table-creation statement raises a [pyodbc.Error] (what
    the server answers when [TestTable] already exists), the run is: the
    connection, the version query and its two lines, the refused statement,
    the error line, and [close].  The insert and the selection are not
    submitted.  The connection is closed on the driver: the events before
    [close] are the driver's own, [close] is called in the world they left,
    its logged result is the driver's, and the world after the run is the
    one [close] left. *)
Theorem existing_table_stops_run (w : World) k cls text :
  In (EvExecute k sql_create (Raises (PyodbcError cls text))) (run_trace w) ->
  exists c v w0,
    run_trace w =
      [EvConnect connection_string (Returns c); EvCursor c (Returns k);
       EvExecute k sql_version (Returns tt); EvFetchone k (Returns v);
       EvPrint msg_version; EvPrint (str_row v);
       EvExecute k sql_create (Raises (PyodbcError cls text));
       EvPrint (print2 error_prefix text);
       EvClose c (fst (close c w0))] /\
    stdout (run_trace w) =
      [msg_version; str_row v; (error_prefix ++ " " ++ text)%string] /\
    submitted (run_trace w) = [sql_version; sql_create] /\
    closes_last c (run_trace w) /\
    driven w
      [EvConnect connection_string (Returns c); EvCursor c (Returns k);
       EvExecute k sql_version (Returns tt); EvFetchone k (Returns v);
       EvPrint msg_version; EvPrint (str_row v);
       EvExecute k sql_create (Raises (PyodbcError cls text));
       EvPrint (print2 error_prefix text)] w0 /\
    world (snd (run w)) = snd (close c w0).
Proof.
  intros H.
  destruct (existing_table_trace w k cls text H)
    as (c & v & r & Htr & Hout & Hsub & Hlast).
  pose proof (run_driven w) as Hd. rewrite Htr in Hd.
  change (driven w
            ([EvConnect connection_string (Returns c); EvCursor c (Returns k);
              EvExecute k sql_version (Returns tt); EvFetchone k (Returns v);
              EvPrint msg_version; EvPrint (str_row v);
              EvExecute k sql_create (Raises (PyodbcError cls text));
              EvPrint (print2 error_prefix text)] ++ EvClose c r :: [])
            (world (snd (run w)))) in Hd.
  apply driven_at in Hd. destruct Hd as (w0 & Hd & Hev & Hend).
  cbn [answer fst snd] in Hev, Hend. injection Hev as Hr.
  apply driven_nil in Hend. rewrite Hr in Htr.
  exists c, v, w0. repeat split; assumption.
Qed.

(** What follows a statement in the trace. *)
Lemma commit_follows_shape (w : World) pre k sql r post :
  run_trace w = pre ++ EvExecute k sql r :: post ->
  match r with
  | Returns _ =>
      sql = sql_create \/ sql = sql_insert ->
      exists c r' post',
        post = EvCommit c r' :: post' /\
        In (EvConnect connection_string (Returns c)) pre
  | Raises _ => existsb is_commit post = false
  end.
Proof.
  revert pre k sql r post. explore; intros pre k' sql r post H;
    split_trace H;
    repeat match goal with
           | E : EvExecute _ _ _ = _ |- _ =>
               first [discriminate E | injection E as -> -> ->]
           | E : exists _, EvExecute _ _ _ = _ |- _ =>
               destruct E as (? & E); discriminate E
           end;
    cbn [existsb is_commit orb];
    try reflexivity;
    intros [Hs | Hs]; try discriminate Hs;
    do 3 eexists; (split; [reflexivity |]); left; reflexivity.
Qed.

(** C8: a table-creation or insert statement that the driver's [execute]
    returned from is followed at once by the driver's [commit] on the
    connection that was opened: the next event is that call, made in the
    world [execute] left, its logged result is the driver's, and the rest
    of the run goes on from the world [commit] left.  After a statement
    that raised, the rest of the run has no commit, and that rest is all
    the driver is asked. *)
Theorem commit_after_success_only (w : World) pre k sql r post :
  run_trace w = pre ++ EvExecute k sql r :: post ->
  exists w0,
    driven w pre w0 /\
    r = fst (execute k sql w0) /\
    match r with
    | Returns _ =>
        sql = sql_create \/ sql = sql_insert ->
        exists c post',
          post =
            EvCommit c (fst (commit c (snd (execute k sql w0)))) :: post' /\
          driven (snd (commit c (snd (execute k sql w0)))) post'
            (world (snd (run w))) /\
          In (EvConnect connection_string (Returns c)) pre
    | Raises _ =>
        existsb is_commit post = false /\
        driven (snd (execute k sql w0)) post (world (snd (run w)))
    end.
Proof.
  intros H. pose proof (commit_follows_shape w pre k sql r post H) as Hshape.
  pose proof (run_driven w) as Hd. rewrite H in Hd.
  apply driven_at in Hd. destruct Hd as (w0 & Hpre & Hev & Hpost).
  cbn [answer fst snd] in Hev, Hpost. injection Hev as Hr.
  exists w0. split; [exact Hpre |]. split; [exact Hr |].
  destruct r as [u | e].
  - intros Hs. destruct (Hshape Hs) as (c & r' & post' & -> & Hin).
    apply driven_cons in Hpost. cbn [answer fst snd] in Hpost.
    destruct Hpost as [Hc Hrest]. injection Hc as ->.
    exists c, post'. repeat split; assumption.
  - split; [exact Hshape | exact Hpost].
Qed.

(** C9, as the code behaves: an exception that is not a [pyodbc.Error],
    raised by a driver call of the [try] block, is never handled: nothing
    is printed for it.  Once the connection is open, the cleanup calls the
    driver's [close] and the exception leaves the script (the exception of
    [close] does if [close] raises).  Raised by [pyodbc.connect] itself, it
    does not leave the script: [conn] is unbound and the cleanup block ends
    the run with a [NameError]. *)
Theorem other_exception_propagates (w : World) pre ev post e :
  run_trace w = pre ++ ev :: post ->
  is_close ev = false ->
  event_raised ev = Some e ->
  is_pyodbc_error e = false ->
  stdout (run_trace w) = stdout pre /\
  ((pre = [] /\ post = [] /\ outcome w = Raises (NameError "conn")) \/
   (exists c w0,
       In (EvConnect connection_string (Returns c)) pre /\
       post = [EvClose c (fst (close c w0))] /\
       driven w (pre ++ [ev]) w0 /\
       world (snd (run w)) = snd (close c w0) /\
       outcome w = match fst (close c w0) with
                   | Returns _ => Raises e
                   | Raises e' => Raises e'
                   end)).
Proof.
  intros H Hcl Hev Hclass.
  assert (Hq : stdout [ev] = []) by (destruct ev; cbn in *; congruence).
  destruct (raise_shape w pre ev post _ H Hcl Hev)
    as [(-> & -> & Hout) | (c & pre' & r & -> & _ & -> & Hout)];
    unfold reported, ending in *; rewrite Hclass in *.
  - split; [rewrite H; exact Hq |]. left. repeat split. exact Hout.
  - split.
    + rewrite H.
      change (ev :: [] ++ [EvClose c r]) with ([ev] ++ [EvClose c r]).
      rewrite !stdout_app, Hq. cbn. rewrite app_nil_r. reflexivity.
    + right. pose proof (run_driven w) as Hd. rewrite H in Hd.
      change (driven w
                ((EvConnect connection_string (Returns c) :: pre') ++
                 ev :: [] ++ [EvClose c r]) (world (snd (run w))))
        with (driven w
                ((EvConnect connection_string (Returns c) :: pre') ++
                 [ev] ++ EvClose c r :: []) (world (snd (run w)))) in Hd.
      rewrite app_assoc in Hd.
      apply driven_at in Hd. destruct Hd as (w0 & Hd & Hc & Hend).
      cbn [answer fst snd] in Hc, Hend. injection Hc as ->.
      apply driven_nil in Hend.
      exists c, w0. split; [left; reflexivity |].
      split; [reflexivity |]. split; [exact Hd |]. split; [exact Hend |].
      exact Hout.
Qed.

(** C10: every run hands [pyodbc.connect] one descriptor, the same whatever
    the outside world; read as ODBC fields it has [SERVER] ending in port
    1433, [Encrypt=no] and [TrustServerCertificate=yes]; and these three
    parts are literals of the f-strings, whatever the five configured
    values are. *)
Theorem descriptor_is_fixed (w : World) :
  connects (run_trace w) = [connection_string] /\
  odbc_fields connection_string =
    [("DRIVER", "{ODBC Driver 18 for SQL Server}");
     ("SERVER", "localhost,1433");
     ("DATABASE", "master");
     ("UID", "sa");
     ("PWD", "!Passw0rd");
     ("Encrypt", "no");
     ("TrustServerCertificate", "yes")]%string /\
  (forall d s db u p : string,
      make_connection_string d s db u p =
      ("DRIVER=" ++ d ++ ";SERVER=" ++ s ++ ",1433;DATABASE=" ++ db ++
       ";UID=" ++ u ++ ";PWD=" ++ p ++
       ";Encrypt=no;TrustServerCertificate=yes;")%string).
Proof.
  split; [| split].
  - destruct (first_event w) as (rest & -> & Hrest). cbn. rewrite Hrest.
    reflexivity.
  - reflexivity.
  - intros d s db u p. unfold make_connection_string.
    repeat rewrite append_assoc. reflexivity.
Qed.

(** ** Further properties of the script *)

(** Every driver call of a run is made on the handles of that run: the
    statements and fetches on a cursor that [conn.cursor()] returned for
    the connection [pyodbc.connect] returned, and [cursor()], [commit] and
    [close] on that connection. *)
Theorem calls_use_own_handles (w : World) ev :
  In ev (run_trace w) -> own_handles (run_trace w) ev.
Proof.
  revert ev. explore; intros ev H;
    repeat first
      [ destruct H as [<- | H]
      | apply in_prints_tail in H; destruct H as [(line & ->) | H]
      | destruct H ];
    cbn [own_handles]; try exact I;
    try (eexists; split);
    first [ left; reflexivity | right; left; reflexivity ].
Qed.

(** Lines 43-46: when [fetchall] returned the rows [rs], the output of the
    run is the heading, the version row, the two success messages and then
    one line per row of [rs], in order; none when [rs] is empty. *)
Theorem selection_prints_every_row (w : World) k (rs : list Row) :
  In (EvFetchall k (Returns rs)) (run_trace w) ->
  exists v,
    In (EvFetchone k (Returns v)) (run_trace w) /\
    stdout (run_trace w) =
      msg_version :: str_row v :: msg_created :: msg_inserted ::
      map row_str rs.
Proof.
  revert k rs. explore; intros k' rs' H; find_in H;
    eexists; (split; [do 3 right; left; reflexivity |]);
    cbn [stdout]; rewrite stdout_app, stdout_prints; cbn [stdout];
    rewrite app_nil_r; reflexivity.
Qed.

(** Lines 28-30: when the version query gives no row, [fetchone] returns
    [None]; the script prints the heading and the line [None] and goes on
    to submit the table creation. *)
Theorem missing_version_row_is_printed (w : World) k :
  In (EvFetchone k (Returns None)) (run_trace w) ->
  exists rest,
    stdout (run_trace w) = msg_version :: "None"%string :: rest /\
    In sql_create (submitted (run_trace w)).
Proof.
  revert k. explore; intros k' H; find_in H;
    eexists; (split; [reflexivity |]);
    cbn [submitted]; right; left; reflexivity.
Qed.

(** Lines 34 and 39: the run issues [conn.commit()] nowhere else than
    right after a table-creation or insert statement that returned, on the
    connection that was opened. *)
Theorem commit_only_after_create_or_insert (w : World) pre c r post :
  run_trace w = pre ++ EvCommit c r :: post ->
  exists pre' k sql,
    pre = pre' ++ [EvExecute k sql (Returns tt)] /\
    (sql = sql_create \/ sql = sql_insert) /\
    In (EvConnect connection_string (Returns c)) pre'.
Proof.
  revert pre c r post. explore; intros pre c' r post H;
    split_trace H;
    repeat match goal with
           | E : EvCommit _ _ = _ |- _ =>
               first [discriminate E | injection E as -> ->]
           | E : exists _, EvCommit _ _ = _ |- _ =>
               destruct E as (? & E); discriminate E
           end;
    match goal with
    | |- exists pre' k sql, ?l = _ /\ _ => exists (removelast l)
    end;
    cbn [removelast]; do 2 eexists;
    (split; [reflexivity |]);
    (split; [first [left; reflexivity | right; reflexivity]
            | left; reflexivity]).
Qed.

(** Lines 51-54: an exception raised by [conn.close()] is outside the
    [except] clause: whatever its class it is not printed, it is the last
    event of the run and the script ends with it, also after a [try] block
    that had succeeded or had raised something else. *)
Theorem close_error_leaves_script (w : World) c e :
  In (EvClose c (Raises e)) (run_trace w) ->
  outcome w = Raises e /\
  exists pre, run_trace w = pre ++ [EvClose c (Raises e)].
Proof.
  revert c e. explore; intros c' e' H; find_in H;
    (split; [reflexivity |]);
    repeat first [ solve [exists []; reflexivity]
                 | solve [eexists; reflexivity]
                 | apply ends_cons ].
Qed.

(** The script ends normally exactly when [pyodbc.connect] returned and
    nothing was raised but [pyodbc.Error]s in the [try] block: a driver
    error after the connection is open is printed and does not change how
    the script ends. *)
Theorem normal_exit_iff (w : World) :
  outcome w = Returns tt <->
  (exists c, fst (connect connection_string w) = Returns c) /\
  forallb handled (run_trace w) = true.
Proof.
  explore; cbn [fst forallb handled event_raised raised_by is_close negb andb];
    rewrite ?Hclass; cbn [andb];
    rewrite ?handled_prints;
    cbn [fst forallb handled event_raised raised_by is_close negb andb];
    rewrite ?andb_false_r;
    (split;
     [ intros H; first [discriminate H | split; [eexists; reflexivity | reflexivity]]
     | intros [(c' & Hc) Hall]; first [discriminate Hc | discriminate Hall | reflexivity] ]).
Qed.

End Properties.

(** * The script on the reference driver *)

Section OnReference.

#[local] Existing Instance Reference.driver.

Import Reference.

(** ** The runs used below, evaluated *)

Lemma fresh_trace :
  run_trace fresh =
    [EvConnect connection_string (Returns tt); EvCursor tt (Returns tt);
     EvExecute tt sql_version (Returns tt);
     EvFetchone tt (Returns (Some [SqlText banner]));
     EvPrint msg_version; EvPrint "('Microsoft SQL Server 2022',)";
     EvExecute tt sql_create (Returns tt); EvCommit tt (Returns tt);
     EvPrint msg_created;
     EvExecute tt sql_insert (Returns tt); EvCommit tt (Returns tt);
     EvPrint msg_inserted;
     EvExecute tt sql_select (Returns tt);
     EvFetchall tt (Returns [[SqlInt 1; SqlText "John Doe"]]);
     EvPrint "(1, 'John Doe')"; EvClose tt (Returns tt)].
Proof. vm_compute. reflexivity. Qed.

Lemma fresh_world : world (snd (run fresh)) = populated.
Proof. vm_compute. reflexivity. Qed.

Lemma populated_trace :
  run_trace populated =
    [EvConnect connection_string (Returns tt); EvCursor tt (Returns tt);
     EvExecute tt sql_version (Returns tt);
     EvFetchone tt (Returns (Some [SqlText banner]));
     EvPrint msg_version; EvPrint "('Microsoft SQL Server 2022',)";
     EvExecute tt sql_create (Raises already_exists);
     EvPrint (print2 error_prefix (exn_str already_exists));
     EvClose tt (Returns tt)].
Proof. vm_compute. reflexivity. Qed.

Lemma locked_trace :
  run_trace locked =
    [EvConnect connection_string (Raises login_failed);
     EvPrint (print2 error_prefix (exn_str login_failed))].
Proof. vm_compute. reflexivity. Qed.

Lemma interrupted_connect_trace :
  run_trace (interrupted 0) =
    [EvConnect connection_string (Raises interrupt)].
Proof. vm_compute. reflexivity. Qed.

Lemma interrupted_connect_outcome :
  outcome (interrupted 0) = Raises (NameError "conn").
Proof. vm_compute. reflexivity. Qed.

Lemma interrupted_create_trace :
  run_trace (interrupted 4) =
    [EvConnect connection_string (Returns tt); EvCursor tt (Returns tt);
     EvExecute tt sql_version (Returns tt);
     EvFetchone tt (Returns (Some [SqlText banner]));
     EvPrint msg_version; EvPrint "('Microsoft SQL Server 2022',)";
     EvExecute tt sql_create (Raises interrupt);
     EvClose tt (Returns tt)].
Proof. vm_compute. reflexivity. Qed.

(** ** The theorems at these runs *)

(** First run on a fresh server: every call succeeds. *)
Lemma full_run_output_witness :
  forallb succeeded (run_trace fresh) = true /\
  In (EvFetchone tt (Returns (Some [SqlText banner]))) (run_trace fresh) /\
  In (EvFetchall tt (Returns [[SqlInt 1; SqlText "John Doe"]]))
     (run_trace fresh) /\
  stdout (run_trace fresh) =
    ["SQL Server version:"; "('Microsoft SQL Server 2022',)";
     "Table created successfully."; "Data inserted successfully.";
     "(1, 'John Doe')"]%string /\
  outcome fresh = Returns tt.
Proof.
  assert (Hall : forallb succeeded (run_trace fresh) = true)
    by (rewrite fresh_trace; reflexivity).
  assert (Hone : In (EvFetchone tt (Returns (Some [SqlText banner])))
                    (run_trace fresh))
    by (rewrite fresh_trace; do 3 right; left; reflexivity).
  assert (Hrows : In (EvFetchall tt (Returns [[SqlInt 1; SqlText "John Doe"]]))
                     (run_trace fresh))
    by (rewrite fresh_trace; do 13 right; left; reflexivity).
  split; [exact Hall |]. split; [exact Hone |]. split; [exact Hrows |].
  exact (full_run_output fresh tt tt _ _ Hall Hone Hrows).
Defined.

(** All four statements on a fresh server, and the table creation as the
    driver's own call. *)
Lemma statements_in_order_witness :
  forallb (fun ev => is_close ev || succeeded ev) (run_trace fresh) = true /\
  submitted (run_trace fresh) =
    ["SELECT @@version;";
     "CREATE TABLE TestTable (id INT PRIMARY KEY, name NVARCHAR(50));";
     "INSERT INTO TestTable (id, name) VALUES (1, 'John Doe');";
     "SELECT * FROM TestTable;"]%string /\
  run_trace fresh =
    firstn 6 (run_trace fresh) ++
    EvExecute tt sql_create (Returns tt) :: skipn 7 (run_trace fresh) /\
  exists w0,
    driven fresh (firstn 6 (run_trace fresh)) w0 /\
    Returns tt = fst (execute tt sql_create w0) /\
    driven (snd (execute tt sql_create w0)) (skipn 7 (run_trace fresh))
      (world (snd (run fresh))).
Proof.
  assert (Hall : forallb (fun ev => is_close ev || succeeded ev)
                   (run_trace fresh) = true)
    by (rewrite fresh_trace; reflexivity).
  assert (H : run_trace fresh =
              firstn 6 (run_trace fresh) ++
              EvExecute tt sql_create (Returns tt) ::
              skipn 7 (run_trace fresh))
    by (rewrite fresh_trace; reflexivity).
  split; [exact Hall |].
  split; [exact (proj2 (proj2 (proj2 (statements_in_order fresh))) Hall) |].
  split; [exact H |].
  exact (proj1 (proj2 (statements_in_order fresh)) _ _ _ _ _ H).
Defined.

(** A refused login: the [NameError] of the cleanup block. *)
Lemma failed_connect_witness :
  fst (connect connection_string locked) = Raises login_failed /\
  outcome locked = Raises (NameError "conn").
Proof.
  assert (H : fst (connect connection_string locked) = Raises login_failed)
    by reflexivity.
  split; [exact H |].
  exact (failed_connect_ends_in_NameError locked login_failed H).
Defined.

(** Second run: the server refuses to create the table again. *)
Lemma driver_error_stops_run_witness :
  run_trace populated =
    firstn 6 (run_trace populated) ++
    EvExecute tt sql_create (Raises already_exists) ::
    skipn 7 (run_trace populated) /\
  is_close (EvExecute tt sql_create (Raises already_exists)) = false /\
  event_raised (EvExecute tt sql_create (Raises already_exists)) =
    Some already_exists /\
  ((skipn 7 (run_trace populated) =
      [EvPrint (print2 error_prefix (exn_str already_exists))] /\
    outcome populated = Raises (NameError "conn")) \/
   (exists c r,
       skipn 7 (run_trace populated) =
         [EvPrint (print2 error_prefix (exn_str already_exists));
          EvClose c r] /\
       outcome populated = r)).
Proof.
  assert (H : run_trace populated =
              firstn 6 (run_trace populated) ++
              EvExecute tt sql_create (Raises already_exists) ::
              skipn 7 (run_trace populated))
    by (rewrite populated_trace; reflexivity).
  split; [exact H |]. split; [reflexivity |]. split; [reflexivity |].
  exact (driver_error_stops_run populated _ _ _ _ _ H eq_refl eq_refl).
Defined.

Lemma opened_connection_is_closed_witness :
  fst (connect connection_string populated) = Returns tt /\
  closes_last tt (run_trace populated) /\
  exists pre w0,
    run_trace populated = pre ++ [EvClose tt (fst (close tt w0))] /\
    existsb is_close pre = false /\
    driven populated pre w0 /\
    world (snd (run populated)) = snd (close tt w0).
Proof.
  split; [reflexivity |].
  exact (opened_connection_is_closed populated tt eq_refl).
Defined.

(** A schema error on the second run, reported with the prefix. *)
Lemma driver_errors_reported_uniformly_witness :
  run_trace populated =
    firstn 6 (run_trace populated) ++
    EvExecute tt sql_create (Raises already_exists) ::
    skipn 7 (run_trace populated) /\
  is_close (EvExecute tt sql_create (Raises already_exists)) = false /\
  event_raised (EvExecute tt sql_create (Raises already_exists)) =
    Some already_exists /\
  stdout (run_trace populated) =
    stdout (firstn 6 (run_trace populated)) ++
    [(error_prefix ++ " " ++ exn_str already_exists)%string].
Proof.
  assert (H : run_trace populated =
              firstn 6 (run_trace populated) ++
              EvExecute tt sql_create (Raises already_exists) ::
              skipn 7 (run_trace populated))
    by (rewrite populated_trace; reflexivity).
  split; [exact H |]. split; [reflexivity |]. split; [reflexivity |].
  exact (driver_errors_reported_uniformly populated _ _ _ _ _ H
           eq_refl eq_refl).
Defined.

(** Two runs in a row on a fresh server: the first leaves the server as
    [populated], the second stops at the table creation. *)
Lemma existing_table_stops_run_witness :
  world (snd (run fresh)) = populated /\
  In (EvExecute tt sql_create (Raises already_exists)) (run_trace populated) /\
  exists c v w0,
    run_trace populated =
      [EvConnect connection_string (Returns c); EvCursor c (Returns tt);
       EvExecute tt sql_version (Returns tt); EvFetchone tt (Returns v);
       EvPrint msg_version; EvPrint (str_row v);
       EvExecute tt sql_create (Raises already_exists);
       EvPrint (print2 error_prefix (exn_str already_exists));
       EvClose c (fst (close c w0))] /\
    stdout (run_trace populated) =
      [msg_version; str_row v;
       (error_prefix ++ " " ++ exn_str already_exists)%string] /\
    submitted (run_trace populated) = [sql_version; sql_create] /\
    closes_last c (run_trace populated) /\
    driven populated
      [EvConnect connection_string (Returns c); EvCursor c (Returns tt);
       EvExecute tt sql_version (Returns tt); EvFetchone tt (Returns v);
       EvPrint msg_version; EvPrint (str_row v);
       EvExecute tt sql_create (Raises already_exists);
       EvPrint (print2 error_prefix (exn_str already_exists))] w0 /\
    world (snd (run populated)) = snd (close c w0).
Proof.
  assert (H : In (EvExecute tt sql_create (Raises already_exists))
                 (run_trace populated))
    by (rewrite populated_trace; do 6 right; left; reflexivity).
  split; [exact fresh_world |]. split; [exact H |].
  exact (existing_table_stops_run populated tt _ _ H).
Defined.

(** The commit after the table creation of a first run. *)
Lemma commit_after_success_only_witness :
  run_trace fresh =
    firstn 6 (run_trace fresh) ++
    EvExecute tt sql_create (Returns tt) :: skipn 7 (run_trace fresh) /\
  (sql_create = sql_create \/ sql_create = sql_insert) /\
  exists w0,
    driven fresh (firstn 6 (run_trace fresh)) w0 /\
    Returns tt = fst (execute tt sql_create w0) /\
    exists c post',
      skipn 7 (run_trace fresh) =
        EvCommit c (fst (commit c (snd (execute tt sql_create w0)))) ::
        post' /\
      driven (snd (commit c (snd (execute tt sql_create w0)))) post'
        (world (snd (run fresh))) /\
      In (EvConnect connection_string (Returns c))
         (firstn 6 (run_trace fresh)).
Proof.
  assert (H : run_trace fresh =
              firstn 6 (run_trace fresh) ++
              EvExecute tt sql_create (Returns tt) ::
              skipn 7 (run_trace fresh))
    by (rewrite fresh_trace; reflexivity).
  split; [exact H |]. split; [left; reflexivity |].
  destruct (commit_after_success_only (drv := Reference.driver) fresh _ tt
              sql_create (Returns tt) _ H)
    as (w0 & Hpre & Hr & Hcommit).
  exists w0. split; [exact Hpre |]. split; [exact Hr |].
  exact (Hcommit (or_introl eq_refl)).
Defined.

(** An interrupt during [pyodbc.connect] is replaced by the [NameError]
    of the cleanup block; an interrupt during the table creation leaves
    the script after [close]. *)
Lemma other_exception_propagates_witness :
  (run_trace (interrupted 0) =
     [] ++ EvConnect connection_string (Raises interrupt) :: [] /\
   is_pyodbc_error interrupt = false /\
   stdout (run_trace (interrupted 0)) = [] /\
   outcome (interrupted 0) = Raises (NameError "conn")) /\
  (run_trace (interrupted 4) =
     firstn 6 (run_trace (interrupted 4)) ++
     EvExecute tt sql_create (Raises interrupt) ::
     skipn 7 (run_trace (interrupted 4)) /\
   stdout (run_trace (interrupted 4)) =
     stdout (firstn 6 (run_trace (interrupted 4))) /\
   ((firstn 6 (run_trace (interrupted 4)) = [] /\
     skipn 7 (run_trace (interrupted 4)) = [] /\
     outcome (interrupted 4) = Raises (NameError "conn")) \/
    (exists c w0,
        In (EvConnect connection_string (Returns c))
           (firstn 6 (run_trace (interrupted 4))) /\
        skipn 7 (run_trace (interrupted 4)) =
          [EvClose c (fst (close c w0))] /\
        driven (interrupted 4)
          (firstn 6 (run_trace (interrupted 4)) ++
           [EvExecute tt sql_create (Raises interrupt)]) w0 /\
        world (snd (run (interrupted 4))) = snd (close c w0) /\
        outcome (interrupted 4) =
          match fst (close c w0) with
          | Returns _ => Raises interrupt
          | Raises e' => Raises e'
          end))).
Proof.
  assert (H0 : run_trace (interrupted 0) =
               [] ++ EvConnect connection_string (Raises interrupt) :: [])
    by exact interrupted_connect_trace.
  assert (H4 : run_trace (interrupted 4) =
               firstn 6 (run_trace (interrupted 4)) ++
               EvExecute tt sql_create (Raises interrupt) ::
               skipn 7 (run_trace (interrupted 4)))
    by (rewrite interrupted_create_trace; reflexivity).
  split.
  - split; [exact H0 |]. split; [reflexivity |].
    split; [| exact interrupted_connect_outcome].
    exact (proj1 (other_exception_propagates (interrupted 0) _ _ _ interrupt
                    H0 eq_refl eq_refl eq_refl)).
  - split; [exact H4 |].
    exact (other_exception_propagates (interrupted 4) _ _ _ interrupt
             H4 eq_refl eq_refl eq_refl).
Defined.

(** ** The further properties at these runs *)

Lemma interrupted_close_trace :
  run_trace (interrupted 10) =
    [EvConnect connection_string (Returns tt); EvCursor tt (Returns tt);
     EvExecute tt sql_version (Returns tt);
     EvFetchone tt (Returns (Some [SqlText banner]));
     EvPrint msg_version; EvPrint "('Microsoft SQL Server 2022',)";
     EvExecute tt sql_create (Returns tt); EvCommit tt (Returns tt);
     EvPrint msg_created;
     EvExecute tt sql_insert (Returns tt); EvCommit tt (Returns tt);
     EvPrint msg_inserted;
     EvExecute tt sql_select (Returns tt);
     EvFetchall tt (Returns [[SqlInt 1; SqlText "John Doe"]]);
     EvPrint "(1, 'John Doe')"; EvClose tt (Raises interrupt)].
Proof. vm_compute. reflexivity. Qed.

Lemma rowless_trace :
  run_trace (drv := rowless) fresh =
    [EvConnect (drv := rowless) connection_string (Returns tt);
     EvCursor (drv := rowless) tt (Returns tt);
     EvExecute (drv := rowless) tt sql_version (Returns tt);
     EvFetchone (drv := rowless) tt (Returns None);
     EvPrint msg_version; EvPrint "None";
     EvExecute (drv := rowless) tt sql_create (Returns tt);
     EvCommit (drv := rowless) tt (Returns tt);
     EvPrint msg_created;
     EvExecute (drv := rowless) tt sql_insert (Returns tt);
     EvCommit (drv := rowless) tt (Returns tt);
     EvPrint msg_inserted;
     EvExecute (drv := rowless) tt sql_select (Returns tt);
     EvFetchall (drv := rowless) tt
       (Returns [[SqlInt 1; SqlText "John Doe"]]);
     EvPrint "(1, 'John Doe')";
     EvClose (drv := rowless) tt (Returns tt)].
Proof. vm_compute. reflexivity. Qed.

(** The insert of a first run goes through the cursor of the run. *)
Lemma calls_use_own_handles_witness :
  In (EvExecute tt sql_insert (Returns tt)) (run_trace fresh) /\
  exists c,
    In (EvConnect connection_string (Returns c)) (run_trace fresh) /\
    In (EvCursor c (Returns tt)) (run_trace fresh).
Proof.
  assert (H : In (EvExecute tt sql_insert (Returns tt)) (run_trace fresh))
    by (rewrite fresh_trace; do 9 right; left; reflexivity).
  split; [exact H |].
  exact (calls_use_own_handles fresh _ H).
Defined.

Lemma selection_prints_every_row_witness :
  In (EvFetchall tt (Returns [[SqlInt 1; SqlText "John Doe"]]))
     (run_trace fresh) /\
  exists v,
    In (EvFetchone tt (Returns v)) (run_trace fresh) /\
    stdout (run_trace fresh) =
      msg_version :: str_row v :: msg_created :: msg_inserted ::
      ["(1, 'John Doe')"%string].
Proof.
  assert (H : In (EvFetchall tt (Returns [[SqlInt 1; SqlText "John Doe"]]))
                 (run_trace fresh))
    by (rewrite fresh_trace; do 13 right; left; reflexivity).
  split; [exact H |].
  exact (selection_prints_every_row fresh tt _ H).
Defined.

Lemma missing_version_row_is_printed_witness :
  In (EvFetchone (drv := rowless) tt (Returns None))
     (run_trace (drv := rowless) fresh) /\
  exists rest,
    stdout (run_trace (drv := rowless) fresh) =
      msg_version :: "None"%string :: rest /\
    In sql_create (submitted (run_trace (drv := rowless) fresh)).
Proof.
  assert (H : In (EvFetchone (drv := rowless) tt (Returns None))
                 (run_trace (drv := rowless) fresh))
    by (rewrite rowless_trace; do 3 right; left; reflexivity).
  split; [exact H |].
  exact (missing_version_row_is_printed (drv := rowless) fresh tt H).
Defined.

Lemma commit_only_after_create_or_insert_witness :
  run_trace fresh =
    firstn 10 (run_trace fresh) ++
    EvCommit tt (Returns tt) :: skipn 11 (run_trace fresh) /\
  exists pre' k sql,
    firstn 10 (run_trace fresh) = pre' ++ [EvExecute k sql (Returns tt)] /\
    (sql = sql_create \/ sql = sql_insert) /\
    In (EvConnect connection_string (Returns tt)) pre'.
Proof.
  assert (H : run_trace fresh =
              firstn 10 (run_trace fresh) ++
              EvCommit tt (Returns tt) :: skipn 11 (run_trace fresh))
    by (rewrite fresh_trace; reflexivity).
  split; [exact H |].
  exact (commit_only_after_create_or_insert fresh _ tt (Returns tt) _ H).
Defined.

(** An interrupt during [close], after a [try] block that succeeded. *)
Lemma close_error_leaves_script_witness :
  In (EvClose tt (Raises interrupt)) (run_trace (interrupted 10)) /\
  outcome (interrupted 10) = Raises interrupt /\
  exists pre,
    run_trace (interrupted 10) = pre ++ [EvClose tt (Raises interrupt)].
Proof.
  assert (H : In (EvClose tt (Raises interrupt)) (run_trace (interrupted 10)))
    by (rewrite interrupted_close_trace; do 15 right; left; reflexivity).
  split; [exact H |].
  exact (close_error_leaves_script (interrupted 10) tt interrupt H).
Defined.

(** The second run prints an error and still ends normally; a refused
    login does not. *)
Lemma normal_exit_iff_witness :
  (exists c, fst (connect connection_string populated) = Returns c) /\
  forallb handled (run_trace populated) = true /\
  outcome populated = Returns tt.
Proof.
  assert (Hc : exists c, fst (connect connection_string populated) = Returns c)
    by (exists tt; reflexivity).
  assert (Hall : forallb handled (run_trace populated) = true)
    by (rewrite populated_trace; reflexivity).
  split; [exact Hc |]. split; [exact Hall |].
  exact (proj2 (normal_exit_iff populated) (conj Hc Hall)).
Defined.

End OnReference.
